(** * result-cpp: the [res::result<T, E>] outcome type and its markers

    A shallow embedding of the single-header library (namespace [res]):
    the failure marker [err<E>], the success marker [ok<T>], the general
    outcome [result<T, E>] and its specialization [result<void, E>],
    followed by the properties the specification states about them. *)

From Stdlib Require Import ZArith String Bool List Lia.
Import ListNotations.

Local Open Scope list_scope.
Local Open Scope string_scope.

Set Implicit Arguments.

(** ** C++ preliminaries *)

(** Exceptions the header throws: only [std::logic_error], with its
    [what()] message. *)
Inductive exception : Type :=
| logic_error (what : string).

(** A member function whose body has a [throw] statement either returns
    a value or leaves by an exception. *)
Inductive Exc (A : Type) : Type :=
| Returned (a : A)
| Thrown (ex : exception).

Arguments Returned {A} a.
Arguments Thrown {A} ex.

(** Caller-supplied functors may have side effects (a call counter, a
    log). They run on a caller state [S], threaded explicitly. *)
Definition State (S A : Type) : Type := S -> A * S.

Definition ret {S A : Type} (a : A) : State S A := fun s => (a, s).

Definition bind {S A B : Type} (c : State S A) (k : A -> State S B) : State S B :=
  fun s => let (a, s') := c s in k a s'.

Notation "x <- c ;; k" := (bind c (fun x => k))
  (at level 61, c at next level, right associativity).

(** A functor without side effects, [[](T x) { return f(x); }]. *)
Definition pure_functor {S A B : Type} (f : A -> B) : A -> State S B :=
  fun x => ret (f x).

(** Value-initialization [T()]: what an object of the type holds after
    [auto res = result<T, E>()] ran the defaulted constructor.  A type
    without an accessible default constructor has no instance. *)
Class DefaultConstructible (A : Type) : Type := value_init : A.

(** [std::monostate], the unit payload of an empty [ok<>]. *)
Inductive monostate : Type := monostate_value.

(** [int] as an integer; [int()] is zero. *)
Definition int : Type := Z.

#[export] Instance int_default : DefaultConstructible int := 0%Z.
#[export] Instance bool_default : DefaultConstructible bool := false.
#[export] Instance string_default : DefaultConstructible string := EmptyString.
#[export] Instance monostate_default : DefaultConstructible monostate := monostate_value.

(** ** The failure marker, [template <typename E> class err] *)
Module err.

(** [E error_;] and [explicit err(E error)].  [err() = delete]: there is no
    [DefaultConstructible] instance. *)
Record t (E : Type) : Type := mk { error_ : E }.

End err.

(** ** The success marker, [template <typename T = std::monostate> class ok] *)
Module ok.

(** [T value_;] and [explicit ok(T value)]. *)
Record t (T : Type) : Type := mk { value_ : T }.

(** [ok() = default;] *)
#[export] Instance default_ctor {T : Type} `{DefaultConstructible T}
  : DefaultConstructible (t T) := mk value_init.

(** The empty marker [ok<>()], whose payload type defaults to
    [std::monostate]. *)
Definition empty : t monostate := value_init.

End ok.

(** ** The general form, [template <typename T, typename E> class result] *)
Module result.

(** Data members: [bool successful_ = false; T value_; E error_;]. *)
Record t (T E : Type) : Type := mk {
  successful_ : bool;
  value_ : T;
  error_ : E
}.

Section Members.
Context {T E : Type}.

(** [result() = default;] (private) *)
Definition default_ctor `{DefaultConstructible T} `{DefaultConstructible E} : t T E :=
  {| successful_ := false; value_ := value_init; error_ := value_init |}.

(** [make_successful(T value)]: assigns two members of [*this]. *)
Definition make_successful (this : t T E) (value : T) : t T E :=
  {| successful_ := true; value_ := value; error_ := error_ this |}.

(** [make_unsuccessful(E error)] *)
Definition make_unsuccessful (this : t T E) (error : E) : t T E :=
  {| successful_ := false; value_ := value_ this; error_ := error |}.

(** [ok<T>::operator result<T, E>() const] *)
Definition of_ok `{DefaultConstructible T} `{DefaultConstructible E}
    (marker : ok.t T) : t T E :=
  let res := default_ctor in
  let res := make_successful res (ok.value_ marker) in
  res.

(** [err<E>::operator result<T, E>() const] *)
Definition of_err `{DefaultConstructible T} `{DefaultConstructible E}
    (marker : err.t E) : t T E :=
  let res := default_ctor in
  let res := make_unsuccessful res (err.error_ marker) in
  res.

(** Observers *)
Definition is_ok (this : t T E) : bool := successful_ this.

(** [explicit operator bool() const] *)
Definition operator_bool (this : t T E) : bool := is_ok this.

(** [operator!() const] *)
Definition operator_not (this : t T E) : bool := negb (is_ok this).

Definition value (this : t T E) : Exc T :=
  if negb (is_ok this)
  then Thrown (logic_error "value() called on result with error")
  else Returned (value_ this).

Definition value_or (this : t T E) (default_value : T) : T :=
  if is_ok this then value_ this else default_value.

Definition error (this : t T E) : Exc E :=
  if is_ok this
  then Thrown (logic_error "error() called on result with value")
  else Returned (error_ this).

End Members.

Section Map.
Context {T E U S : Type}.
Context `{DefaultConstructible U} `{DefaultConstructible E}.

(** [map(F &&functor) const -> result<U, E>], both [return]s going
    through the marker conversions. *)
Definition map (this : t T E) (functor : T -> State S U) : State S (t U E) :=
  if is_ok this
  then u <- functor (value_ this) ;; ret (of_ok (ok.mk u))
  else ret (of_err (err.mk (error_ this))).

End Map.

End result.

(** ** The specialization [template <typename E> class result<void, E>] *)
Module result_void.

(** Data members: [bool successful_ = false; E error_;]. *)
Record t (E : Type) : Type := mk {
  successful_ : bool;
  error_ : E
}.

Section Members.
Context {E : Type}.

(** [result() = default;] (private) *)
Definition default_ctor `{DefaultConstructible E} : t E :=
  {| successful_ := false; error_ := value_init |}.

(** [make_successful()] *)
Definition make_successful (this : t E) : t E :=
  {| successful_ := true; error_ := error_ this |}.

(** [make_unsuccessful(E error)] *)
Definition make_unsuccessful (this : t E) (error : E) : t E :=
  {| successful_ := false; error_ := error |}.

(** [ok<T>::operator result<void, E>() const], for every payload
    type [T] of the marker. *)
Definition of_ok {T : Type} `{DefaultConstructible E} (marker : ok.t T) : t E :=
  let res := default_ctor in
  let res := make_successful res in
  res.

(** [err<E>::operator result<void, E>() const] *)
Definition of_err `{DefaultConstructible E} (marker : err.t E) : t E :=
  let res := default_ctor in
  let res := make_unsuccessful res (err.error_ marker) in
  res.

(** Observers *)
Definition is_ok (this : t E) : bool := successful_ this.

Definition operator_bool (this : t E) : bool := is_ok this.

Definition operator_not (this : t E) : bool := negb (is_ok this).

Definition error (this : t E) : Exc E :=
  if is_ok this
  then Thrown (logic_error "error() called on result with value")
  else Returned (error_ this).

End Members.

Section Map.
Context {E U S : Type}.
Context `{DefaultConstructible U} `{DefaultConstructible E}.

(** [map(F &&functor) const -> result<U, E>]: the functor takes no
    argument. *)
Definition map (this : t E) (functor : State S U) : State S (result.t U E) :=
  if is_ok this
  then u <- functor ;; ret (result.of_ok (ok.mk u))
  else ret (result.of_err (err.mk (error_ this))).

End Map.

End result_void.


(** ** The public interface as data

    Every public member of the two class templates, as a call that can be
    performed on an outcome: the observers, the accessors and [map]. *)
Module interface.

Section General.
Context {T E U S : Type}.
Context `{DefaultConstructible U} `{DefaultConstructible E}.

(** The public members of [result<T, E>]. *)
Inductive call : Type :=
| is_ok
| operator_bool
| operator_not
| value
| value_or (default_value : T)
| error
| map (functor : T -> State S U).

(** What a call hands back. *)
Inductive answer : Type :=
| a_bool (b : bool)
| a_value (v : T)
| a_error (e : E)
| a_result (r : result.t U E).

Definition perform (c : call) (this : result.t T E) : State S (Exc answer) :=
  match c with
  | is_ok => ret (Returned (a_bool (result.is_ok this)))
  | operator_bool => ret (Returned (a_bool (result.operator_bool this)))
  | operator_not => ret (Returned (a_bool (result.operator_not this)))
  | value =>
      match result.value this with
      | Returned v => ret (Returned (a_value v))
      | Thrown ex => ret (Thrown ex)
      end
  | value_or default_value =>
      ret (Returned (a_value (result.value_or this default_value)))
  | error =>
      match result.error this with
      | Returned e => ret (Returned (a_error e))
      | Thrown ex => ret (Thrown ex)
      end
  | map functor => r <- result.map this functor ;; ret (Returned (a_result r))
  end.

End General.

Section Void.
Context {E U S : Type}.
Context `{DefaultConstructible U} `{DefaultConstructible E}.

(** The public members of [result<void, E>]. *)
Inductive void_call : Type :=
| void_is_ok
| void_operator_bool
| void_operator_not
| void_error
| void_map (functor : State S U).

Inductive void_answer : Type :=
| va_bool (b : bool)
| va_error (e : E)
| va_result (r : result.t U E).

Definition void_perform (c : void_call) (this : result_void.t E)
  : State S (Exc void_answer) :=
  match c with
  | void_is_ok => ret (Returned (va_bool (result_void.is_ok this)))
  | void_operator_bool => ret (Returned (va_bool (result_void.operator_bool this)))
  | void_operator_not => ret (Returned (va_bool (result_void.operator_not this)))
  | void_error =>
      match result_void.error this with
      | Returned e => ret (Returned (va_error e))
      | Thrown ex => ret (Thrown ex)
      end
  | void_map functor =>
      r <- result_void.map this functor ;; ret (Returned (va_result r))
  end.

End Void.

End interface.

(** ** The README's usage example *)
Module readme.

Section Factories.
Context {T E : Type} `{DefaultConstructible T} `{DefaultConstructible E}.

(** Modelled from the spec: the static factory [Result<T, E>::Ok] that the
    example calls is not in the header.  The specification builds every
    success outcome by converting a success marker (discriminant =
    success, success payload = the given value), so the factory is that
    conversion. *)
Definition Ok (value : T) : result.t T E := result.of_ok (ok.mk value).

(** Modelled from the spec: the static factory [Result<T, E>::Err], also
    absent from the header; a failure outcome is built by converting a
    failure marker (discriminant = failure, error payload = the given
    error). *)
Definition Err (error : E) : result.t T E := result.of_err (err.mk error).

End Factories.

(** [a / b] on [int] truncates toward zero.  The one quotient that leaves
    the range of [int], [INT_MIN / -1], is undefined in C++ and outside
    this model. *)
Definition int_div (a b : int) : int := Z.quot a b.

(** [res::Result<int, std::string> divide(int a, int b)] *)
Definition divide (a b : int) : result.t int string :=
  if (b =? 0)%Z
  then Err "Division by zero"
  else Ok (int_div a b).

End readme.

(** ** Template instantiation

    Which instantiations of the class templates the compiler accepts: the
    [static_assert]s of the two templates, the choice between the primary
    template and the partial specialization, and the implicit default
    constructor the marker conversions call. *)
Module instantiation.

(** A template argument: [void], or an object type given by its values
    and by what value-initialization yields ([None] when the type has no
    accessible default constructor, as [err<E>] with its
    [err() = delete]). *)
Inductive cpp_type : Type :=
| void
| object (A : Type) (default_init : option A).

(** [std::is_same_v<T, void>] *)
Definition is_same_void (T : cpp_type) : bool :=
  match T with
  | void => true
  | object _ => false
  end.

(** The values of the type; [void] has none. *)
Definition carrier (T : cpp_type) : Type :=
  match T with
  | void => Empty_set
  | @object A _ => A
  end.

(** [T()] when it is well-formed. *)
Definition default_of (T : cpp_type) : option (carrier T) :=
  match T with
  | void => None
  | object d => d
  end.

(** [std::is_default_constructible_v<T>] *)
Definition is_default_constructible (T : cpp_type) : bool :=
  match default_of T with
  | Some _ => true
  | None => false
  end.

(** The two class templates the name [result] stands for. *)
Inductive class_template : Type :=
| primary
| void_specialization.

(** [result<T, E>] names the partial specialization exactly when the
    first argument is [void]. *)
Definition select (T : cpp_type) : class_template :=
  if is_same_void T then void_specialization else primary.

(** The [static_assert] declarations of each template, in order, as
    (condition, message). *)
Definition static_asserts (c : class_template) (T E : cpp_type)
  : list (bool * string) :=
  match c with
  | primary =>
      [ (negb (is_same_void T), "T (value type) must not be void");
        (negb (is_same_void E), "E (error type) must not be void") ]
  | void_specialization =>
      [ (negb (is_same_void E), "E (error type) must not be void") ]
  end.

(** The message of the first assertion that fails, if any. *)
Fixpoint first_failure (asserts : list (bool * string)) : option string :=
  match asserts with
  | [] => None
  | (true, _) :: rest => first_failure rest
  | (false, message) :: _ => Some message
  end.

(** Instantiating [result<T, E>]: the compiler's diagnostic, or the
    template that was instantiated. *)
Definition instantiate (T E : cpp_type) : string + class_template :=
  let c := select T in
  match first_failure (static_asserts c T E) with
  | Some message => inl message
  | None => inr c
  end.

(** The private constructor [result<T, E>::result()] of the primary
    template: it default-initializes the members [T value_] and
    [E error_], so it exists only when both types allow that. *)
Definition general_default_ctor (T E : cpp_type)
  : option (result.t (carrier T) (carrier E)) :=
  match instantiate T E with
  | inr primary =>
      match default_of T, default_of E with
      | Some dT, Some dE => Some (@result.default_ctor _ _ dT dE)
      | _, _ => None
      end
  | _ => None
  end.

(** [ok<T>::operator result<T, E>()] in the primary template: its body
    starts with [result<T, E>()]. *)
Definition general_of_ok (T E : cpp_type)
  : option (ok.t (carrier T) -> result.t (carrier T) (carrier E)) :=
  match instantiate T E with
  | inr primary =>
      match default_of T, default_of E with
      | Some dT, Some dE => Some (@result.of_ok _ _ dT dE)
      | _, _ => None
      end
  | _ => None
  end.

(** [err<E>::operator result<T, E>()] in the primary template. *)
Definition general_of_err (T E : cpp_type)
  : option (err.t (carrier E) -> result.t (carrier T) (carrier E)) :=
  match instantiate T E with
  | inr primary =>
      match default_of T, default_of E with
      | Some dT, Some dE => Some (@result.of_err _ _ dT dE)
      | _, _ => None
      end
  | _ => None
  end.

(** Some template arguments. *)
Definition int_type : cpp_type := object (Some (value_init : int)).
Definition string_type : cpp_type := object (Some (value_init : string)).
Definition monostate_type : cpp_type := object (Some monostate_value).

(** [err<std::string>], a class without default constructor. *)
Definition err_string_type : cpp_type := object (@None (err.t string)).

End instantiation.

(** ** Outcomes as the conversions leave them *)
Module layout.

Section Canonical.
Context {T E : Type} `{DefaultConstructible T} `{DefaultConstructible E}.

(** The state of a [result<T, E>] object after [result()] and one call
    of [make_successful] or [make_unsuccessful], the only way the header
    builds one: the slot the discriminant does not select still holds
    what value-initialization put there. *)
Definition canonical (r : result.t T E) : Prop :=
  if result.is_ok r
  then result.error_ r = value_init
  else result.value_ r = value_init.

End Canonical.

End layout.

(** ** Instantiating the conversions to [result<void, E>] *)
Module void_instantiation.

Import instantiation.




End void_instantiation.

(** ** The README's [main] *)
Module readme_main.


Section Main.

(** [std::ostream::operator<<(int)], the decimal text of a number:
    standard-library code, taken as given. *)
Variable print_int : int -> string.





End Main.

End readme_main.

(** * Properties *)

(** ** Helper facts on the accessors *)

Lemma value_returned_inv {T E : Type} (this : result.t T E) (v : T) :
  result.value this = Returned v ->
  result.is_ok this = true /\ result.value_ this = v.
Proof.
  unfold result.value.
  destruct (result.is_ok this); simpl; intros Hv.
  - split; [reflexivity | congruence].
  - discriminate Hv.
Qed.

Lemma error_returned_inv {T E : Type} (this : result.t T E) (e : E) :
  result.error this = Returned e ->
  result.is_ok this = false /\ result.error_ this = e.
Proof.
  unfold result.error.
  destruct (result.is_ok this); intros He.
  - discriminate He.
  - split; [reflexivity | congruence].
Qed.

Lemma void_error_returned_inv {E : Type} (this : result_void.t E) (e : E) :
  result_void.error this = Returned e ->
  result_void.is_ok this = false /\ result_void.error_ this = e.
Proof.
  unfold result_void.error.
  destruct (result_void.is_ok this); intros He.
  - discriminate He.
  - split; [reflexivity | congruence].
Qed.

(** ** Marker conversions *)

(** C1. For every value [v] and all payload types, the outcome obtained
    from the success marker [ok(v)] is a success ([is_ok()] is [true])
    and [value()] returns [v]. *)
Theorem ok_conversion_is_success
    {T E : Type} `{DefaultConstructible T} `{DefaultConstructible E} (v : T) :
  result.is_ok (result.of_ok (E := E) (ok.mk v)) = true /\
  result.value (result.of_ok (E := E) (ok.mk v)) = Returned v.
Proof.
  split; reflexivity.
Qed.

(** C2. For every error [e] and all payload types, the outcome obtained
    from the failure marker [err(e)] is a failure ([is_ok()] is [false])
    and [error()] returns [e]; likewise for [result<void, E>]. *)
Theorem err_conversion_is_failure
    {T E : Type} `{DefaultConstructible T} `{DefaultConstructible E} (e : E) :
  (result.is_ok (result.of_err (T := T) (err.mk e)) = false /\
   result.error (result.of_err (T := T) (err.mk e)) = Returned e) /\
  (result_void.is_ok (result_void.of_err (err.mk e)) = false /\
   result_void.error (result_void.of_err (err.mk e)) = Returned e).
Proof.
  repeat split.
Qed.

(** ** Failure semantics of the accessors *)

(** C3. On both forms of the outcome, [value()] on a failure and
    [error()] on a success leave by [std::logic_error], which is an
    exception and not a value of the error type; every other public call
    ([is_ok], the boolean conversion, the negation, [value_or], [map]
    with a total functor, and the accessor matching the discriminant)
    returns. *)
Theorem only_mismatched_accessors_throw
    {T E U S : Type} `{DefaultConstructible U} `{DefaultConstructible E}
    (failed succeeded : result.t T E) (void_succeeded : result_void.t E)
    (Hfailed : result.is_ok failed = false)
    (Hsucceeded : result.is_ok succeeded = true)
    (Hvoid : result_void.is_ok void_succeeded = true) :
  result.value failed
  = Thrown (logic_error "value() called on result with error") /\
  result.error succeeded
  = Thrown (logic_error "error() called on result with value") /\
  result_void.error void_succeeded
  = Thrown (logic_error "error() called on result with value") /\
  (forall (this : result.t T E) (s : S)
          (c : interface.call (T := T) (U := U) (S := S)),
     (c = interface.value -> result.is_ok this = true) ->
     (c = interface.error -> result.is_ok this = false) ->
     exists a s', interface.perform c this s = (Returned a, s')) /\
  (forall (this : result_void.t E) (s : S)
          (c : interface.void_call (U := U) (S := S)),
     (c = interface.void_error -> result_void.is_ok this = false) ->
     exists a s', interface.void_perform c this s = (Returned a, s')).
Proof.
  repeat split.
  - unfold result.value. rewrite Hfailed. reflexivity.
  - unfold result.error. rewrite Hsucceeded. reflexivity.
  - unfold result_void.error. rewrite Hvoid. reflexivity.
  - intros this s c Hvalue Herror.
    destruct c as [ | | | | d | | functor ]; simpl;
      try (eexists; eexists; reflexivity).
    + unfold result.value. rewrite (Hvalue eq_refl). simpl.
      eexists; eexists; reflexivity.
    + unfold result.error. rewrite (Herror eq_refl). simpl.
      eexists; eexists; reflexivity.
    + unfold result.map, bind, ret.
      destruct (result.is_ok this).
      * destruct (functor (result.value_ this) s) as [u s'].
        eexists; eexists; reflexivity.
      * eexists; eexists; reflexivity.
  - intros this s c Herror.
    destruct c as [ | | | | functor ]; simpl;
      try (eexists; eexists; reflexivity).
    + unfold result_void.error. rewrite (Herror eq_refl). simpl.
      eexists; eexists; reflexivity.
    + unfold result_void.map, bind, ret.
      destruct (result_void.is_ok this).
      * destruct (functor s) as [u s'].
        eexists; eexists; reflexivity.
      * eexists; eexists; reflexivity.
Qed.

(** ** The [map] combinator *)

(** C4. [map] on a success holding [v] runs the functor once on [v] and
    returns a success of [result<U, E>] holding its output; for a total
    function [f] without side effects that is a success holding [f v].
    In [result<void, E>] the functor is run without argument and its
    output is wrapped the same way. *)
Theorem map_on_success
    {T E U S : Type} `{DefaultConstructible U} `{DefaultConstructible E}
    (this : result.t T E) (v : T) (void_this : result_void.t E)
    (Hthis : result.value this = Returned v)
    (Hvoid : result_void.is_ok void_this = true) :
  (forall (functor : T -> State S U) (s : S),
     result.map this functor s
     = (result.of_ok (ok.mk (fst (functor v s))), snd (functor v s))) /\
  (forall (f : T -> U) (s : S),
     exists r : result.t U E,
       result.map this (pure_functor f) s = (r, s) /\
       result.is_ok r = true /\ result.value r = Returned (f v)) /\
  (forall (functor : State S U) (s : S),
     result_void.map void_this functor s
     = (result.of_ok (ok.mk (fst (functor s))), snd (functor s))) /\
  (forall (u : U) (s : S),
     exists r : result.t U E,
       result_void.map void_this (ret u) s = (r, s) /\
       result.is_ok r = true /\ result.value r = Returned u).
Proof.
  destruct (value_returned_inv this Hthis) as [Hok Hv].
  unfold result.map, result_void.map, bind, ret, pure_functor.
  rewrite Hok, Hv, Hvoid.
  repeat split.
  - intros functor s. destruct (functor v s); reflexivity.
  - intros f s. eexists. repeat split.
  - intros functor s. destruct (functor s); reflexivity.
  - intros u s. eexists. repeat split.
Qed.

(** C5. [map] on a failure holding [e] returns the failure of
    [result<U, E>] holding [e] whatever the functor is, and leaves the
    caller state as it was: the functor is not run.  The same holds in
    [result<void, E>]. *)
Theorem map_on_failure
    {T E U S : Type} `{DefaultConstructible U} `{DefaultConstructible E}
    (this : result.t T E) (void_this : result_void.t E) (e e' : E)
    (Hthis : result.error this = Returned e)
    (Hvoid : result_void.error void_this = Returned e') :
  (forall (functor : T -> State S U) (s : S),
     result.map this functor s = (result.of_err (err.mk e), s)) /\
  (forall (functor : State S U) (s : S),
     result_void.map void_this functor s = (result.of_err (err.mk e'), s)) /\
  (result.is_ok (result.of_err (T := U) (err.mk e)) = false /\
   result.error (result.of_err (T := U) (err.mk e)) = Returned e).
Proof.
  destruct (error_returned_inv this Hthis) as [Hok He].
  destruct (void_error_returned_inv void_this Hvoid) as [Hok' He'].
  unfold result.map, result_void.map, ret.
  rewrite Hok, He, Hok', He'.
  repeat split.
Qed.

(** ** [value_or] *)

(** C6. [value_or(d)] returns the held value where [value()] returns it
    (a success) and returns [d] where [value()] throws (a failure); it
    returns in both cases. *)
Theorem value_or_spec {T E : Type} (this : result.t T E) (d : T) :
  (result.is_ok this = true -> result.value_or this d = result.value_ this) /\
  (result.is_ok this = false -> result.value_or this d = d) /\
  result.value_or this d
  = match result.value this with
    | Returned v => v
    | Thrown _ => d
    end.
Proof.
  unfold result.value_or, result.value.
  destruct (result.is_ok this); simpl; repeat split; intros Hd; discriminate Hd.
Qed.

(** ** The usage example *)

(** C7. [divide(10, 2)] is a success whose value is [5]; [divide(10, 0)]
    is a failure whose error is ["Division by zero"]. *)
Theorem divide_example :
  (result.is_ok (readme.divide 10%Z 2%Z) = true /\
   result.value (readme.divide 10%Z 2%Z) = Returned 5%Z) /\
  (result.is_ok (readme.divide 10%Z 0%Z) = false /\
   result.error (readme.divide 10%Z 0%Z) = Returned "Division by zero").
Proof.
  repeat split.
Qed.

(** The example on every input: a failure exactly for a zero divisor. *)
Lemma divide_spec (a b : int) :
  readme.divide a b
  = if (b =? 0)%Z
    then result.of_err (err.mk "Division by zero")
    else result.of_ok (ok.mk (Z.quot a b)).
Proof.
  unfold readme.divide, readme.Err, readme.Ok, readme.int_div.
  destruct (b =? 0)%Z; reflexivity.
Qed.

(** A functor that counts its calls in the caller state. *)
Example map_counts_calls :
  let counting : int -> State nat int := fun x n => ((x + 1)%Z, Datatypes.S n) in
  snd (result.map (readme.divide 10%Z 2%Z) counting 0) = 1 /\
  snd (result.map (readme.divide 10%Z 0%Z) counting 0) = 0.
Proof.
  split; reflexivity.
Qed.

(** ** Template arguments *)

Lemma instantiate_primary_iff (T E : instantiation.cpp_type) :
  instantiation.instantiate T E = inr instantiation.primary <->
  instantiation.is_same_void T = false /\ instantiation.is_same_void E = false.
Proof.
  split.
  - intros H. destruct T, E; try discriminate H. split; reflexivity.
  - intros [HT HE]. destruct T, E; try discriminate HT; try discriminate HE.
    reflexivity.
Qed.

(** [std::monostate], the payload of the empty success marker, is an
    accepted argument of the general form. *)
Lemma monostate_instantiates_primary (E : instantiation.cpp_type) :
  instantiation.is_same_void E = false ->
  instantiation.instantiate instantiation.monostate_type E
  = inr instantiation.primary.
Proof.
  destruct E; simpl; intros H; [discriminate H | reflexivity].
Qed.

(** C8. The general form is instantiated only with a value type and an
    error type other than [void]: with [void] as value type the name
    [result<void, E>] is the specialization, and [void] as error type is
    rejected by the [static_assert] of either template. *)
Theorem general_form_excludes_void
    (T E : instantiation.cpp_type)
    (Hgeneral : instantiation.instantiate T E = inr instantiation.primary) :
  (T <> instantiation.void /\ E <> instantiation.void) /\
  (forall E' : instantiation.cpp_type,
     instantiation.instantiate instantiation.void E' <> inr instantiation.primary) /\
  (forall T' : instantiation.cpp_type,
     instantiation.instantiate T' instantiation.void
     = inl "E (error type) must not be void") /\
  (forall (A : Type) (d : option A),
     instantiation.instantiate instantiation.void (instantiation.object d)
     = inr instantiation.void_specialization).
Proof.
  repeat split.
  - intros ->. destruct E; discriminate Hgeneral.
  - intros ->. destruct T; discriminate Hgeneral.
  - intros E'. destruct E'; discriminate.
  - intros T'. destruct T'; reflexivity.
Qed.

(** ** Payload slots *)

(** Outcomes with the same discriminant and the same payload in the slot
    it selects answer every public call alike. *)
Lemma unselected_slot_not_observed
    {T E U S : Type} `{DefaultConstructible U} `{DefaultConstructible E}
    (r1 r2 : result.t T E) :
  result.is_ok r1 = result.is_ok r2 ->
  (result.is_ok r1 = true -> result.value_ r1 = result.value_ r2) ->
  (result.is_ok r1 = false -> result.error_ r1 = result.error_ r2) ->
  forall (c : interface.call (T := T) (U := U) (S := S)) (s : S),
    interface.perform c r1 s = interface.perform c r2 s.
Proof.
  intros Hok Hvalue Herror c s.
  destruct c; simpl;
    unfold result.operator_bool, result.operator_not, result.value,
      result.value_or, result.error, result.map;
    rewrite <- Hok; try reflexivity;
    destruct (result.is_ok r1); simpl;
    try rewrite (Hvalue eq_refl); try rewrite (Herror eq_refl); reflexivity.
Qed.

(** C9. A general-form outcome holds both payload slots: the conversion
    from a failure marker value-initializes the value slot and the
    conversion from a success marker value-initializes the error slot, so
    the conversions (and the constructor they call) exist only for
    default-constructible [T] and [E]; and no public call shows the slot
    the discriminant does not select. *)
Theorem both_slots_are_constructed
    {T E U S : Type} `{DefaultConstructible T} `{DefaultConstructible E}
    `{DefaultConstructible U}
    (cT cE : instantiation.cpp_type)
    (conv : ok.t (instantiation.carrier cT)
            -> result.t (instantiation.carrier cT) (instantiation.carrier cE))
    (Hconv : instantiation.general_of_ok cT cE = Some conv) :
  (forall e : E,
     result.value_ (result.of_err (T := T) (err.mk e)) = value_init /\
     result.error_ (result.of_err (T := T) (err.mk e)) = e) /\
  (forall v : T,
     result.value_ (result.of_ok (E := E) (ok.mk v)) = v /\
     result.error_ (result.of_ok (E := E) (ok.mk v)) = value_init) /\
  (instantiation.is_default_constructible cT = true /\
   instantiation.is_default_constructible cE = true) /\
  (forall cT' cE' : instantiation.cpp_type,
     instantiation.is_default_constructible cT'
       && instantiation.is_default_constructible cE' = false ->
     instantiation.general_default_ctor cT' cE' = None /\
     instantiation.general_of_ok cT' cE' = None /\
     instantiation.general_of_err cT' cE' = None) /\
  (forall (this : result.t T E) (other_value : T) (other_error : E)
          (c : interface.call (T := T) (U := U) (S := S)) (s : S),
     interface.perform c this s
     = interface.perform c
         (if result.is_ok this
          then result.mk true (result.value_ this) other_error
          else result.mk false other_value (result.error_ this)) s).
Proof.
  split; [ intros e; split; reflexivity | ].
  split; [ intros v; split; reflexivity | ].
  split.
  - unfold instantiation.general_of_ok in Hconv.
    unfold instantiation.is_default_constructible.
    destruct (instantiation.instantiate cT cE) as [ | [ | ] ];
      try discriminate Hconv.
    destruct (instantiation.default_of cT); try discriminate Hconv.
    destruct (instantiation.default_of cE); try discriminate Hconv.
    split; reflexivity.
  - split.
    + intros cT' cE'.
      unfold instantiation.general_default_ctor, instantiation.general_of_ok,
        instantiation.general_of_err, instantiation.is_default_constructible.
      destruct (instantiation.instantiate cT' cE') as [ | [ | ] ];
        try (intros _; repeat split; reflexivity).
      destruct (instantiation.default_of cT');
        destruct (instantiation.default_of cE'); simpl; intros Hd;
        try discriminate Hd; repeat split; reflexivity.
    + intros this other_value other_error c s.
      apply unselected_slot_not_observed.
      * destruct (result.is_ok this); reflexivity.
      * intros Hok. rewrite Hok. reflexivity.
      * intros Hok. rewrite Hok. reflexivity.
Qed.

(** ** Success markers and the void form *)

(** C10. A success marker holding any value of any type converts to
    [result<void, E>]: the outcome is a success and does not depend on
    the held value, which is dropped; so for [ok(5)]. *)
Theorem ok_to_void_discards_value
    {T E : Type} `{DefaultConstructible E} (v : T) :
  result_void.is_ok (result_void.of_ok (E := E) (ok.mk v)) = true /\
  (forall (T' : Type) (v' : T'),
     result_void.of_ok (E := E) (ok.mk v) = result_void.of_ok (ok.mk v')) /\
  result_void.of_ok (E := E) (ok.mk v) = result_void.of_ok ok.empty /\
  result_void.is_ok (result_void.of_ok (E := string) (ok.mk 5%Z)) = true.
Proof.
  repeat split.
Qed.

(** * Instances on concrete outcomes *)

Lemma only_mismatched_accessors_throw_witness :
  (result.is_ok (readme.divide 10%Z 0%Z) = false /\
   result.is_ok (readme.divide 10%Z 2%Z) = true /\
   result_void.is_ok (result_void.of_ok (E := string) ok.empty) = true) /\
  result.value (readme.divide 10%Z 0%Z)
  = Thrown (logic_error "value() called on result with error") /\
  result.error (readme.divide 10%Z 2%Z)
  = Thrown (logic_error "error() called on result with value") /\
  result_void.error (result_void.of_ok (E := string) ok.empty)
  = Thrown (logic_error "error() called on result with value") /\
  (exists a s',
     interface.perform (U := int) (interface.value_or 7%Z)
       (readme.divide 10%Z 0%Z) 0
     = (Returned a, s')).
Proof.
  split; [ repeat split | ].
  destruct (@only_mismatched_accessors_throw int string int nat _ _
              (readme.divide 10%Z 0%Z) (readme.divide 10%Z 2%Z)
              (result_void.of_ok ok.empty) eq_refl eq_refl eq_refl)
    as [Hvalue [Herror [Hvoid [Hcalls _]]]].
  split; [ exact Hvalue | split; [ exact Herror | split; [ exact Hvoid | ] ] ].
  apply Hcalls; intros Hc; discriminate Hc.
Defined.

Lemma map_on_success_witness :
  (result.value (readme.divide 10%Z 2%Z) = Returned 5%Z /\
   result_void.is_ok (result_void.of_ok (E := string) (ok.mk 5%Z)) = true) /\
  result.map (readme.divide 10%Z 2%Z)
    (fun x n => ((x + 1)%Z, Datatypes.S n)) 0
  = (result.of_ok (ok.mk 6%Z), 1) /\
  result_void.map (result_void.of_ok (E := string) (ok.mk 5%Z))
    (fun n => (true, Datatypes.S n)) 0
  = (result.of_ok (ok.mk true), 1).
Proof.
  split; [ split; reflexivity | ].
  destruct (@map_on_success int string int nat _ _
              (readme.divide 10%Z 2%Z) 5%Z
              (result_void.of_ok (ok.mk 5%Z)) eq_refl eq_refl)
    as [Hgeneral _].
  destruct (@map_on_success int string bool nat _ _
              (readme.divide 10%Z 2%Z) 5%Z
              (result_void.of_ok (ok.mk 5%Z)) eq_refl eq_refl)
    as [_ [_ [Hvoid _]]].
  split.
  - exact (Hgeneral (fun x n => ((x + 1)%Z, Datatypes.S n)) 0).
  - exact (Hvoid (fun n => (true, Datatypes.S n)) 0).
Defined.

Lemma map_on_failure_witness :
  (result.error (readme.divide 10%Z 0%Z) = Returned "Division by zero" /\
   result_void.error (result_void.of_err (err.mk "no input")) = Returned "no input") /\
  result.map (readme.divide 10%Z 0%Z)
    (fun x n => ((x + 1)%Z, Datatypes.S n)) 0
  = (result.of_err (err.mk "Division by zero"), 0) /\
  result_void.map (result_void.of_err (err.mk "no input"))
    (fun n => (7%Z, Datatypes.S n)) 0
  = (result.of_err (err.mk "no input"), 0).
Proof.
  split; [ split; reflexivity | ].
  destruct (@map_on_failure int string int nat _ _
              (readme.divide 10%Z 0%Z)
              (result_void.of_err (err.mk "no input"))
              "Division by zero" "no input" eq_refl eq_refl)
    as [Hgeneral [Hvoid _]].
  split.
  - exact (Hgeneral (fun x n => ((x + 1)%Z, Datatypes.S n)) 0).
  - exact (Hvoid (fun n => (7%Z, Datatypes.S n)) 0).
Defined.

Lemma value_or_spec_witness :
  (result.is_ok (readme.divide 10%Z 2%Z) = true /\
   result.value_or (readme.divide 10%Z 2%Z) 42%Z = 5%Z) /\
  (result.is_ok (readme.divide 10%Z 0%Z) = false /\
   result.value_or (readme.divide 10%Z 0%Z) 42%Z = 42%Z).
Proof.
  split; (split; [ reflexivity | ]).
  - exact (proj1 (value_or_spec (readme.divide 10%Z 2%Z) 42%Z) eq_refl).
  - exact (proj1 (proj2 (value_or_spec (readme.divide 10%Z 0%Z) 42%Z)) eq_refl).
Defined.

Lemma general_form_excludes_void_witness :
  instantiation.instantiate instantiation.int_type instantiation.string_type
  = inr instantiation.primary /\
  instantiation.int_type <> instantiation.void /\
  instantiation.string_type <> instantiation.void.
Proof.
  split; [ reflexivity | ].
  exact (proj1 (@general_form_excludes_void instantiation.int_type
                  instantiation.string_type eq_refl)).
Defined.

Lemma both_slots_are_constructed_witness :
  instantiation.general_of_ok instantiation.int_type instantiation.string_type
  = Some (@result.of_ok int string _ _) /\
  instantiation.is_default_constructible instantiation.int_type = true /\
  instantiation.is_default_constructible instantiation.string_type = true /\
  instantiation.general_of_err instantiation.int_type
    instantiation.err_string_type = None.
Proof.
  split; [ reflexivity | ].
  destruct (@both_slots_are_constructed int string int nat _ _ _
              instantiation.int_type instantiation.string_type
              (@result.of_ok int string _ _) eq_refl)
    as [_ [_ [[HT HE] [Hnone _]]]].
  split; [ exact HT | split; [ exact HE | ] ].
  apply (Hnone instantiation.int_type instantiation.err_string_type).
  reflexivity.
Defined.

(** * Further properties of the header *)

(** ** Laws of [map] *)

(** X1. Mapping [f] and then [g] is mapping the functor that runs [f]
    and then [g]: same outcome, same effects in the same order. *)
Theorem map_composes
    {T E U V S : Type} `{DefaultConstructible U} `{DefaultConstructible V}
    `{DefaultConstructible E}
    (this : result.t T E) (f : T -> State S U) (g : U -> State S V) (s : S) :
  (r <- result.map this f ;; result.map r g) s
  = result.map this (fun x => u <- f x ;; g u) s.
Proof.
  unfold result.map, bind, ret.
  destruct (result.is_ok this); simpl.
  - destruct (f (result.value_ this) s) as [u s']. simpl.
    destruct (g u s') as [w s'']. reflexivity.
  - reflexivity.
Qed.

(** X2. The same for [result<void, E>]: mapping a producer and then
    mapping [g] over the outcome it gives is mapping the producer
    followed by [g]. *)
Theorem void_map_composes
    {E U V S : Type} `{DefaultConstructible U} `{DefaultConstructible V}
    `{DefaultConstructible E}
    (this : result_void.t E) (p : State S U) (g : U -> State S V) (s : S) :
  (r <- result_void.map this p ;; result.map r g) s
  = result_void.map this (u <- p ;; g u) s.
Proof.
  unfold result_void.map, result.map, bind, ret.
  destruct (result_void.is_ok this); simpl.
  - destruct (p s) as [u s']. simpl.
    destruct (g u s') as [w s'']. reflexivity.
  - reflexivity.
Qed.

(** X3. Mapping the identity gives back the very same object exactly
    when the slot the discriminant does not select is value-initialized,
    which is how the conversions leave it: [map] rebuilds the outcome
    from a marker and does not copy the unselected slot. *)
Theorem map_identity_iff_canonical
    {T E S : Type} `{DefaultConstructible T} `{DefaultConstructible E}
    (this : result.t T E) (s : S) :
  layout.canonical this <->
  result.map this (pure_functor (fun x => x)) s = (this, s).
Proof.
  destruct this as [successful v e].
  unfold layout.canonical, result.map, pure_functor, bind, ret,
    result.of_ok, result.of_err, result.make_successful,
    result.make_unsuccessful, result.default_ctor, result.is_ok.
  destruct successful; simpl; split.
  - intros ->. reflexivity.
  - intros Heq. injection Heq as Heq. symmetry. exact Heq.
  - intros ->. reflexivity.
  - intros Heq. injection Heq as Heq. symmetry. exact Heq.
Qed.

(** X4. Every outcome the header hands out (by converting a marker, or
    from [map] of either form, whatever object [map] is called on) has
    its unselected slot value-initialized. *)
Theorem outcomes_are_canonical
    {T E U S : Type} `{DefaultConstructible T} `{DefaultConstructible U}
    `{DefaultConstructible E} :
  (forall marker : ok.t T, layout.canonical (result.of_ok (E := E) marker)) /\
  (forall marker : err.t E, layout.canonical (result.of_err (T := T) marker)) /\
  (forall (this : result.t T E) (functor : T -> State S U) (s : S),
     layout.canonical (fst (result.map this functor s))) /\
  (forall (this : result_void.t E) (functor : State S U) (s : S),
     layout.canonical (fst (result_void.map this functor s))).
Proof.
  repeat split.
  - intros this functor s. unfold result.map, bind, ret.
    destruct (result.is_ok this).
    + destruct (functor (result.value_ this) s). reflexivity.
    + reflexivity.
  - intros this functor s. unfold result_void.map, bind, ret.
    destruct (result_void.is_ok this).
    + destruct (functor s). reflexivity.
    + reflexivity.
Qed.

(** X5. Two outcomes in that state on which [value()] and [error()]
    answer alike are the same object: the accessors tell everything
    about an outcome built by the header. *)
Theorem canonical_outcomes_extensional
    {T E : Type} `{DefaultConstructible T} `{DefaultConstructible E}
    (r1 r2 : result.t T E)
    (Hc1 : layout.canonical r1) (Hc2 : layout.canonical r2)
    (Hvalue : result.value r1 = result.value r2)
    (Herror : result.error r1 = result.error r2) :
  r1 = r2.
Proof.
  destruct r1 as [ok1 v1 e1], r2 as [ok2 v2 e2].
  unfold layout.canonical, result.value, result.error, result.is_ok in *.
  simpl in *.
  destruct ok1, ok2; simpl in *; try discriminate Hvalue.
  - injection Hvalue as ->. rewrite Hc1, Hc2. reflexivity.
  - injection Herror as ->. rewrite Hc1, Hc2. reflexivity.
Qed.

(** X6. [map] never changes the side of an outcome: the outcome it
    returns has the discriminant of the one it was called on, and
    [error()] answers on it as on the original (the same error, or the
    same exception), for every functor. *)
Theorem map_preserves_discriminant_and_error
    {T E U S : Type} `{DefaultConstructible U} `{DefaultConstructible E}
    (this : result.t T E) (void_this : result_void.t E)
    (f : T -> State S U) (p : State S U) (s : S) :
  (result.is_ok (fst (result.map this f s)) = result.is_ok this /\
   result.error (fst (result.map this f s)) = result.error this) /\
  (result.is_ok (fst (result_void.map void_this p s))
   = result_void.is_ok void_this /\
   result.error (fst (result_void.map void_this p s))
   = result_void.error void_this).
Proof.
  unfold result.map, result_void.map, result.error, result_void.error,
    bind, ret.
  split.
  - destruct (result.is_ok this).
    + destruct (f (result.value_ this) s). split; reflexivity.
    + split; reflexivity.
  - destruct (result_void.is_ok void_this).
    + destruct (p s). split; reflexivity.
    + split; reflexivity.
Qed.

(** X7. [value_or] commutes with [map] of a side-effect free function:
    the mapped outcome with default [f d] gives [f] of what the original
    gives with default [d]. *)
Theorem value_or_commutes_with_map
    {T E U S : Type} `{DefaultConstructible U} `{DefaultConstructible E}
    (this : result.t T E) (f : T -> U) (d : T) (s : S) :
  result.value_or (fst (result.map this (pure_functor f) s)) (f d)
  = f (result.value_or this d).
Proof.
  unfold result.map, result.value_or, pure_functor, bind, ret.
  destruct (result.is_ok this); reflexivity.
Qed.

(** ** Observers and accessors together *)

(** X8. On every outcome exactly one accessor returns, and the boolean
    conversion tells which: either [operator bool] is [true],
    [operator!] is [false], [value()] returns and [error()] throws, or
    the other way round.  Likewise for [error()] of [result<void, E>]. *)
Theorem accessors_are_exclusive
    {T E : Type} (this : result.t T E) (void_this : result_void.t E) :
  ((result.operator_bool this = true /\ result.operator_not this = false /\
    (exists v, result.value this = Returned v) /\
    (exists ex, result.error this = Thrown ex))
   \/
   (result.operator_bool this = false /\ result.operator_not this = true /\
    (exists ex, result.value this = Thrown ex) /\
    (exists e, result.error this = Returned e))) /\
  ((result_void.operator_bool void_this = true /\
    result_void.operator_not void_this = false /\
    (exists ex, result_void.error void_this = Thrown ex))
   \/
   (result_void.operator_bool void_this = false /\
    result_void.operator_not void_this = true /\
    (exists e, result_void.error void_this = Returned e))).
Proof.
  unfold result.operator_bool, result.operator_not, result.value, result.error,
    result_void.operator_bool, result_void.operator_not, result_void.error.
  split.
  - destruct (result.is_ok this); simpl; [ left | right ];
      (split; [ reflexivity | split; [ reflexivity | split; eexists; reflexivity ] ]).
  - destruct (result_void.is_ok void_this); simpl; [ left | right ];
      (split; [ reflexivity | split; [ reflexivity | eexists; reflexivity ] ]).
Qed.

(** X9. The accessor of the other side throws on a freshly converted
    marker: [error()] on the outcome of [ok(v)] in both forms (so also on
    the empty [ok<>()] turned into [result<void, E>]) and [value()] on
    the outcome of [err(e)]. *)
Theorem converted_marker_rejects_other_accessor
    {T E : Type} `{DefaultConstructible T} `{DefaultConstructible E}
    (v : T) (e : E) :
  result.error (result.of_ok (E := E) (ok.mk v))
  = Thrown (logic_error "error() called on result with value") /\
  result.value (result.of_err (T := T) (err.mk e))
  = Thrown (logic_error "value() called on result with error") /\
  result_void.error (result_void.of_ok (E := E) (ok.mk v))
  = Thrown (logic_error "error() called on result with value") /\
  result_void.error (result_void.of_ok (E := E) ok.empty)
  = Thrown (logic_error "error() called on result with value").
Proof.
  split; [ reflexivity | split; [ reflexivity | split; reflexivity ] ].
Qed.

(** X10. The conversions lose nothing and never confuse the two sides:
    outcomes converted from markers are equal only if the markers are,
    and an outcome from a success marker differs from every outcome from
    a failure marker, in both forms. *)
Theorem conversions_are_injective
    {T E : Type} `{DefaultConstructible T} `{DefaultConstructible E}
    (m m' : ok.t T) (n n' n'' : err.t E)
    (Hok : result.of_ok (E := E) m = result.of_ok m')
    (Herr : result.of_err (T := T) n = result.of_err n')
    (Hvoid : result_void.of_err n = result_void.of_err n'') :
  m = m' /\ n = n' /\ n = n'' /\
  result.of_ok m <> result.of_err n /\
  result_void.of_ok m <> result_void.of_err n.
Proof.
  destruct m as [v], m' as [v'], n as [e], n' as [e'], n'' as [e''].
  unfold result.of_ok, result.of_err, result_void.of_ok, result_void.of_err,
    result.make_successful, result.make_unsuccessful,
    result_void.make_successful, result_void.make_unsuccessful in *.
  simpl in *.
  injection Hok as ->. injection Herr as ->. injection Hvoid as ->.
  split; [ reflexivity | split; [ reflexivity | split; [ reflexivity | ] ] ].
  split; intros Heq; discriminate Heq.
Qed.

(** ** Template instantiation, continued *)



(** ** The README's program *)


(** * Instances of the further properties *)

Lemma map_identity_iff_canonical_witness :
  layout.canonical (readme.divide 10%Z 2%Z) /\
  result.map (readme.divide 10%Z 2%Z) (pure_functor (fun x => x)) 0
  = (readme.divide 10%Z 2%Z, 0) /\
  ~ layout.canonical (result.mk true 5%Z "stale").
Proof.
  split; [ reflexivity | split ].
  - apply (proj1 (map_identity_iff_canonical (readme.divide 10%Z 2%Z) 0)).
    reflexivity.
  - intros Hc.
    pose proof (proj1 (map_identity_iff_canonical
                         (result.mk true 5%Z "stale") 0) Hc) as Heq.
    discriminate Heq.
Defined.

Lemma canonical_outcomes_extensional_witness :
  (layout.canonical (readme.divide 10%Z 2%Z) /\
   layout.canonical (readme.divide 11%Z 2%Z) /\
   result.value (readme.divide 10%Z 2%Z) = result.value (readme.divide 11%Z 2%Z) /\
   result.error (readme.divide 10%Z 2%Z) = result.error (readme.divide 11%Z 2%Z)) /\
  readme.divide 10%Z 2%Z = readme.divide 11%Z 2%Z.
Proof.
  split.
  - split; [ reflexivity | split; [ reflexivity | split; reflexivity ] ].
  - apply (@canonical_outcomes_extensional int string _ _
             (readme.divide 10%Z 2%Z) (readme.divide 11%Z 2%Z));
      reflexivity.
Defined.

Lemma conversions_are_injective_witness :
  (result.of_ok (E := string) (ok.mk 5%Z) = result.of_ok (ok.mk 5%Z) /\
   result.of_err (T := int) (err.mk "e") = result.of_err (err.mk "e") /\
   result_void.of_err (err.mk "e") = result_void.of_err (err.mk "e")) /\
  result.of_ok (ok.mk 5%Z) <> result.of_err (err.mk "e") /\
  result_void.of_ok (ok.mk 5%Z) <> result_void.of_err (err.mk "e").
Proof.
  split; [ split; [ reflexivity | split; reflexivity ] | ].
  destruct (@conversions_are_injective int string _ _
              (ok.mk 5%Z) (ok.mk 5%Z) (err.mk "e") (err.mk "e") (err.mk "e")
              eq_refl eq_refl eq_refl)
    as [_ [_ [_ [Hgeneral Hvoid]]]].
  split; [ exact Hgeneral | exact Hvoid ].
Defined.


